(** * Verification of the request router of [vscode_mcp_integration.py]

    The development embeds [VSCodeMCPServer] (its constructor, [initialize]
    and [handle_request]) and proves the properties of the dispatch and
    templating layer.  It also covers the caller [main] and the printing
    loop of [coding_assistant_demo] in [mcp_client_advanced.py].

    - A Python [Dict] is a finite map from string keys to Python values.
    - [async def handle_request] is a coroutine: a finite tree whose nodes
      are the [await self.agent.run(...)] suspension points.  The agent is
      an external capability; what it replies (or raises) is decided by
      whoever drives the coroutine, see [exec]. *)

From Stdlib Require Import ZArith String Ascii List.
From stdpp Require Import base option strings pretty list gmap fin_maps.

Local Open Scope string_scope.
Local Open Scope list_scope.

(** ** Python values *)

Module Py.

(** The scalar values a request mapping holds. *)
Inductive value : Type :=
| VNone
| VBool (b : bool)
| VInt (z : Z)
| VStr (s : string).

#[global] Instance value_eq_dec : EqDecision value.
Proof. solve_decision. Defined.

(** [str(v)], which is what an f-string placeholder [{v}] renders. *)
Definition str (v : value) : string :=
  match v with
  | VNone => "None"
  | VBool true => "True"
  | VBool false => "False"
  | VInt z => pretty z
  | VStr s => s
  end.

(** [v == w]: a [bool] compares as the integer 0 or 1, a string only
    equals the same string, [None] only equals [None]. *)
Definition eqb (v w : value) : bool :=
  match v, w with
  | VNone, VNone => true
  | VBool a, VBool b => Bool.eqb a b
  | VBool a, VInt z | VInt z, VBool a => Z.eqb (Z.b2z a) z
  | VInt a, VInt b => Z.eqb a b
  | VStr a, VStr b => bool_decide (a = b)
  | _, _ => false
  end.

(** The line feed written [\n] in the source's string literals. *)
Definition nl : string := String (ascii_of_nat 10) EmptyString.

End Py.

Abbreviation Dict := (gmap string Py.value).

(** [d.get(key)] *)
Definition dict_get (d : Dict) (key : string) : Py.value :=
  default Py.VNone (d !! key).

(** [d.get(key, dflt)] *)
Definition dict_get_or (d : Dict) (key : string) (dflt : Py.value) : Py.value :=
  default dflt (d !! key).

(** ** The agent handle and the server object *)

Record StdioConfig := {
  command : string;
  args : list string;
  env : option (list (string * string))
}.

Record ServerSpec := {
  type : string;
  config : StdioConfig
}.

(** What [Agent(model=..., servers=..., prompt=...)] is built from. *)
Record Agent := {
  agent_model : string;
  agent_servers : list ServerSpec;
  agent_prompt : string
}.

Record VSCodeMCPServer := {
  agent : option Agent;
  model : string
}.

(** [VSCodeMCPServer.__init__] *)
Definition init (model : string) : VSCodeMCPServer :=
  {| agent := None; model := model |}.

Definition default_model : string := "meta-llama/Meta-Llama-3.1-70B-Instruct".

Definition assistant_prompt : string :=
  "You are a VS Code AI assistant. Help with:" +:+ Py.nl +:+
  "            - Writing clean, efficient code" +:+ Py.nl +:+
  "            - Debugging and fixing errors" +:+ Py.nl +:+
  "            - Refactoring for better performance" +:+ Py.nl +:+
  "            - Writing tests and documentation" +:+ Py.nl +:+
  "            - Following project conventions and best practices" +:+ Py.nl +:+
  "            ".

(** The [Agent(...)] that [initialize] builds. *)
Definition coding_agent (model : string) : Agent :=
  {| agent_model := model;
     agent_servers :=
       [ {| type := "stdio";
            config := {| command := "npx";
                         args := ["-y"; "@modelcontextprotocol/server-filesystem"];
                         env := Some [("WORKSPACE_DIR", ".")] |} |};
         {| type := "stdio";
            config := {| command := "npx";
                         args := ["-y"; "@modelcontextprotocol/server-python"];
                         env := None |} |} ];
     agent_prompt := assistant_prompt |}.

(** [VSCodeMCPServer.initialize] *)
Definition initialize (self : VSCodeMCPServer) : VSCodeMCPServer :=
  {| agent := Some (coding_agent (model self)); model := model self |}.

(** ** Coroutines *)

Inductive exn : Type :=
| AttributeError (msg : string)
| AgentFailure (msg : string).

(** One [await agent.run(prompt)]. *)
Record AgentCall := { callee : Agent; prompt : string }.

Inductive Coro (A : Type) : Type :=
| Return (a : A)
| Raise (e : exn)
| Await (c : AgentCall) (k : string → Coro A).

Arguments Return {A} a.
Arguments Raise {A} e.
Arguments Await {A} c k.

Fixpoint bind {A B} (f : A → Coro B) (m : Coro A) : Coro B :=
  match m with
  | Return a => f a
  | Raise e => Raise e
  | Await c k => Await c (λ reply, bind f (k reply))
  end.

#[global] Instance Coro_ret : MRet Coro := @Return.
#[global] Instance Coro_bind : MBind Coro := @bind.

(** [await self.agent.run(prompt)]: the attribute lookup on [None] raises
    before anything is sent. *)
Definition agent_run (a : option Agent) (prompt : string) : Coro string :=
  match a with
  | None => Raise (AttributeError "'NoneType' object has no attribute 'run'")
  | Some ag => Await {| callee := ag; prompt := prompt |} Return
  end.

(** ** [VSCodeMCPServer.handle_request] *)

Definition handle_request (self : VSCodeMCPServer) (request : Dict) : Coro Dict :=
  let action := dict_get request "action" in
  if Py.eqb action (Py.VStr "complete_code") then
    let context := dict_get_or request "context" (Py.VStr "") in
    let cursor_position := dict_get_or request "cursor" (Py.VStr "") in
    response ← agent_run (agent self)
      ("Complete this code at cursor position:" +:+ Py.nl +:+ Py.str context
       +:+ Py.nl +:+ "Cursor: " +:+ Py.str cursor_position);
    Return {[ "completion" := Py.VStr response ]}
  else if Py.eqb action (Py.VStr "explain_code") then
    let code := dict_get_or request "code" (Py.VStr "") in
    response ← agent_run (agent self)
      ("Explain this code:" +:+ Py.nl +:+ "```" +:+ Py.nl +:+ Py.str code
       +:+ Py.nl +:+ "```");
    Return {[ "explanation" := Py.VStr response ]}
  else if Py.eqb action (Py.VStr "fix_error") then
    let error := dict_get_or request "error" (Py.VStr "") in
    let code := dict_get_or request "code" (Py.VStr "") in
    response ← agent_run (agent self)
      ("Fix this error:" +:+ Py.nl +:+ "Error: " +:+ Py.str error +:+ Py.nl
       +:+ "Code:" +:+ Py.nl +:+ "```" +:+ Py.nl +:+ Py.str code +:+ Py.nl
       +:+ "```");
    Return {[ "fix" := Py.VStr response ]}
  else if Py.eqb action (Py.VStr "refactor") then
    let code := dict_get_or request "code" (Py.VStr "") in
    let goal := dict_get_or request "goal" (Py.VStr "improve readability and performance") in
    response ← agent_run (agent self)
      ("Refactor this code to " +:+ Py.str goal +:+ ":" +:+ Py.nl +:+ "```"
       +:+ Py.nl +:+ Py.str code +:+ Py.nl +:+ "```");
    Return {[ "refactored" := Py.VStr response ]}
  else if Py.eqb action (Py.VStr "generate_tests") then
    let code := dict_get_or request "code" (Py.VStr "") in
    let framework := dict_get_or request "framework" (Py.VStr "pytest") in
    response ← agent_run (agent self)
      ("Generate " +:+ Py.str framework +:+ " tests for:" +:+ Py.nl +:+ "```"
       +:+ Py.nl +:+ Py.str code +:+ Py.nl +:+ "```");
    Return {[ "tests" := Py.VStr response ]}
  else
    Return {[ "error" := Py.VStr ("Unknown action: " +:+ Py.str action) ]}.

(** ** Driving a coroutine against an agent *)

Inductive outcome (A : Type) : Type :=
| Returned (a : A)
| Raised (e : exn).

Arguments Returned {A} a.
Arguments Raised {A} e.

Section Exec.

(** The agent's behaviour is not fixed by this repository: it is any
    function from its own hidden state and the prompt to a reply or a
    failure and a new hidden state. *)
Context {S : Type}.
Variable run : AgentCall → S → outcome string * S.

(** The hidden state of the agent, and the calls made so far (oldest
    first). *)
Record World := { hidden : S; calls : list AgentCall }.

Fixpoint exec {A} (m : Coro A) (w : World) : outcome A * World :=
  match m with
  | Return a => (Returned a, w)
  | Raise e => (Raised e, w)
  | Await c k =>
      let '(r, s') := run c (hidden w) in
      let w' := {| hidden := s'; calls := calls w ++ [c] |} in
      match r with
      | Returned reply => exec (k reply) w'
      | Raised e => (Raised e, w')
      end
  end.

End Exec.

Arguments World S : clear implicits.

(** ** The action table of the specification

    The five recognized kinds, with the response key, the fields and the
    instruction template the specification's interface table gives for
    each.  [handle_request] itself has no such table: it compares strings.
    [handle_request_ready] below relates the two. *)

Inductive Action : Type :=
| complete_code
| explain_code
| fix_error
| refactor
| generate_tests.

Definition action_name (a : Action) : string :=
  match a with
  | complete_code => "complete_code"
  | explain_code => "explain_code"
  | fix_error => "fix_error"
  | refactor => "refactor"
  | generate_tests => "generate_tests"
  end.

Definition response_key (a : Action) : string :=
  match a with
  | complete_code => "completion"
  | explain_code => "explanation"
  | fix_error => "fix"
  | refactor => "refactored"
  | generate_tests => "tests"
  end.

(** The optional fields of each action, with their defaults. *)
Definition own_fields (a : Action) : list (string * string) :=
  match a with
  | complete_code => [("context", ""); ("cursor", "")]
  | explain_code => [("code", "")]
  | fix_error => [("error", ""); ("code", "")]
  | refactor => [("code", ""); ("goal", "improve readability and performance")]
  | generate_tests => [("code", ""); ("framework", "pytest")]
  end.

(** The text of a field: its value when present, its default otherwise. *)
Definition field (request : Dict) (name dflt : string) : string :=
  match request !! name with
  | Some v => Py.str v
  | None => dflt
  end.

Definition instruction (a : Action) (request : Dict) : string :=
  match a with
  | complete_code =>
      "Complete this code at cursor position:
" +:+ field request "context" "" +:+ "
Cursor: " +:+ field request "cursor" ""
  | explain_code =>
      "Explain this code:
```
" +:+ field request "code" "" +:+ "
```"
  | fix_error =>
      "Fix this error:
Error: " +:+ field request "error" "" +:+ "
Code:
```
" +:+ field request "code" "" +:+ "
```"
  | refactor =>
      "Refactor this code to "
      +:+ field request "goal" "improve readability and performance" +:+ ":
```
" +:+ field request "code" "" +:+ "
```"
  | generate_tests =>
      "Generate " +:+ field request "framework" "pytest" +:+ " tests for:
```
" +:+ field request "code" "" +:+ "
```"
  end.

Definition actions : list Action :=
  [complete_code; explain_code; fix_error; refactor; generate_tests].

(** A value is a recognized action when it is the string naming one. *)
Definition recognized (v : Py.value) : bool :=
  bool_decide (v ∈ (Py.VStr ∘ action_name) <$> actions).

(** [s] occurs in [t]. *)
Definition occurs_in (s t : string) : Prop :=
  ∃ before after, t = before +:+ s +:+ after.

(** The first call a coroutine makes, if it makes one, and the instruction
    that call carries. *)
Definition first_call {A} (m : Coro A) : option AgentCall :=
  match m with
  | Await c _ => Some c
  | Return _ | Raise _ => None
  end.

Definition rendered {A} (m : Coro A) : option string :=
  prompt <$> first_call m.

(** A caller that awaits [handle_request] twice in a row with the same
    server and the same request, and keeps both responses. *)
Definition twice (self : VSCodeMCPServer) (request : Dict) : Coro (Dict * Dict) :=
  first ← handle_request self request;
  second ← handle_request self request;
  Return (first, second).

(** ** Test doubles for the agent *)

(** Replies with the same text to every call. *)
Definition canned (text : string) (c : AgentCall) (s : unit)
    : outcome string * unit :=
  (Returned text, s).

(** Numbers its replies: no two calls get the same text. *)
Definition counting (c : AgentCall) (n : nat) : outcome string * nat :=
  (Returned ("reply " +:+ pretty n), Datatypes.S n).

(** Fails on every call. *)
Definition failing (c : AgentCall) (s : unit) : outcome string * unit :=
  (Raised (AgentFailure "model unavailable"), s).

(** The server of the source's [main], and its agent. *)
Definition main_model : string := "Qwen/Qwen2.5-Coder-32B-Instruct".
Definition main_server : VSCodeMCPServer := initialize (init main_model).
Definition main_agent : Agent := coding_agent main_model.

(** A world in which nothing has been asked yet. *)
Definition fresh {S} (s : S) : World S := {| hidden := s; calls := [] |}.

(** The request of the source's [main]. *)
Definition main_request : Dict :=
  {[ "action" := Py.VStr "fix_error";
     "error" :=
       Py.VStr "TypeError: unsupported operand type(s) for +: 'int' and 'str'";
     "code" :=
       Py.VStr ("def calculate_total(items):" +:+ Py.nl +:+
                "    total = 0" +:+ Py.nl +:+
                "    for item in items:" +:+ Py.nl +:+
                "        total = total + item['price']" +:+ Py.nl +:+
                "    return total") ]}.

(** The instruction the specification expects for [main_request]. *)
Definition main_instruction : string :=
  "Fix this error:
Error: TypeError: unsupported operand type(s) for +: 'int' and 'str'
Code:
```
def calculate_total(items):
    total = 0
    for item in items:
        total = total + item['price']
    return total
```".

(** A request with fields but no action. *)
Definition request_without_action : Dict :=
  {[ "code" := Py.VStr "print(1)"; "goal" := Py.VStr "speed" ]}.

(** ** The caller of [handle_request]: [main] *)

Section Main.

(** [json.dumps(result, indent=...)] is the standard library's; [main]
    is read for any such function. *)
Variable json_dumps : Dict → nat → string.

(** [main] of [vscode_mcp_integration.py]; the value returned is the text
    it prints. *)
Definition main : Coro string :=
  let server := init "Qwen/Qwen2.5-Coder-32B-Instruct" in
  let server := initialize server in
  let request : Dict :=
    {[ "action" := Py.VStr "fix_error";
       "error" :=
         Py.VStr "TypeError: unsupported operand type(s) for +: 'int' and 'str'";
       "code" :=
         Py.VStr ("def calculate_total(items):" +:+ Py.nl +:+
                  "    total = 0" +:+ Py.nl +:+
                  "    for item in items:" +:+ Py.nl +:+
                  "        total = total + item['price']" +:+ Py.nl +:+
                  "    return total") ]} in
  result ← handle_request server request;
  Return (json_dumps result 2 +:+ Py.nl).

End Main.

(** ** The printing loop of [coding_assistant_demo]

    [mcp_client_advanced.py] prints the chunks the client streams back.
    The client and its stream are external; the loop is read over the
    chunks delivered, in order. *)

(** The body of the loop: what one chunk adds to the standard output. *)
Definition print_chunk (chunk : Dict) : string :=
  if Py.eqb (dict_get chunk "type") (Py.VStr "content") then
    Py.str (dict_get_or chunk "text" (Py.VStr ""))
  else if Py.eqb (dict_get chunk "type") (Py.VStr "tool_use") then
    Py.nl +:+ "🔧 Using tool: " +:+ Py.str (dict_get chunk "name") +:+ Py.nl
  else if Py.eqb (dict_get chunk "type") (Py.VStr "tool_result") then
    "✅ Tool completed" +:+ Py.nl +:+ Py.nl
  else
    "".

(** The loop: the standard output after the chunks, from [stdout]. *)
Fixpoint print_chunks (chunks : list Dict) (stdout : string) : string :=
  match chunks with
  | [] => stdout
  | chunk :: rest => print_chunks rest (stdout +:+ print_chunk chunk)
  end.

(** The chunk types the loop has a branch for. *)
Definition chunk_type_known (chunk : Dict) : bool :=
  Py.eqb (dict_get chunk "type") (Py.VStr "content")
  || Py.eqb (dict_get chunk "type") (Py.VStr "tool_use")
  || Py.eqb (dict_get chunk "type") (Py.VStr "tool_result").

(** The strings of a list, one after the other. *)
Definition join (texts : list string) : string :=
  foldr String.append "" texts.


(** Some chunks, as a stream might deliver them. *)
Definition sample_chunks : list Dict :=
  [ {[ "type" := Py.VStr "content"; "text" := Py.VStr "Reading " ]};
    {[ "type" := Py.VStr "ping" ]};
    {[ "type" := Py.VStr "tool_use"; "name" := Py.VStr "read_file" ]};
    {[ "type" := Py.VStr "tool_result" ]};
    {[ "text" := Py.VStr "stray" ]};
    {[ "type" := Py.VStr "content" ]};
    {[ "type" := Py.VStr "content"; "text" := Py.VStr "done." ]} ].

(** The three ways [handle_request] can go. *)
Inductive handling (self : VSCodeMCPServer) (request : Dict) : Coro Dict → Prop :=
| handling_unknown :
    recognized (dict_get request "action") = false →
    handling self request
      (Return {[ "error" :=
         Py.VStr ("Unknown action: " +:+ Py.str (dict_get request "action")) ]})
| handling_uninitialized (a : Action) :
    request !! "action" = Some (Py.VStr (action_name a)) →
    agent self = None →
    handling self request
      (Raise (AttributeError "'NoneType' object has no attribute 'run'"))
| handling_ready (a : Action) (ag : Agent) :
    request !! "action" = Some (Py.VStr (action_name a)) →
    agent self = Some ag →
    handling self request
      (Await {| callee := ag; prompt := instruction a request |}
             (λ reply, Return {[ response_key a := Py.VStr reply ]})).

(** ** Basic facts *)

Lemma eqb_VStr (s t : string) :
  Py.eqb (Py.VStr s) (Py.VStr t) = bool_decide (s = t).
Proof. reflexivity. Qed.

Lemma eqb_VStr_false (v : Py.value) (s : string) :
  v ≠ Py.VStr s → Py.eqb v (Py.VStr s) = false.
Proof.
  intros Hne. destruct v as [ | b | z | t]; simpl; try reflexivity.
  apply bool_decide_eq_false. congruence.
Qed.

Lemma field_get_or (request : Dict) (name dflt : string) :
  Py.str (dict_get_or request name (Py.VStr dflt)) = field request name dflt.
Proof. unfold dict_get_or, field. by destruct (request !! name). Qed.

Example str_of_negative_int : Py.str (Py.VInt (-42)) = "-42".
Proof. reflexivity. Qed.

Example bool_equals_int : Py.eqb (Py.VBool true) (Py.VInt 1) = true.
Proof. reflexivity. Qed.

Example nothing_but_a_string_is_an_action :
  Py.eqb Py.VNone (Py.VStr "refactor") = false.
Proof. reflexivity. Qed.

(** In the Ready state a recognized action makes one agent call, with the
    instruction of the table, and returns the reply under the key of the
    table. *)
Lemma handle_request_ready (self : VSCodeMCPServer) (ag : Agent)
    (request : Dict) (a : Action) :
  agent self = Some ag →
  request !! "action" = Some (Py.VStr (action_name a)) →
  handle_request self request =
    Await {| callee := ag; prompt := instruction a request |}
          (λ reply, Return {[ response_key a := Py.VStr reply ]}).
Proof.
  intros Hag Hact. unfold handle_request, dict_get. rewrite Hact, Hag.
  destruct a; simpl; rewrite ?field_get_or; reflexivity.
Qed.

Lemma recognized_action_name (a : Action) :
  recognized (Py.VStr (action_name a)) = true.
Proof. by destruct a. Qed.

Lemma not_recognized_ne (v : Py.value) (a : Action) :
  recognized v = false → v ≠ Py.VStr (action_name a).
Proof.
  intros Hun ->. rewrite recognized_action_name in Hun. discriminate.
Qed.

(** Anything else returns the error mapping at once, whatever the state. *)
Lemma handle_request_unknown (self : VSCodeMCPServer) (request : Dict) :
  recognized (dict_get request "action") = false →
  handle_request self request =
    Return {[ "error" :=
      Py.VStr ("Unknown action: " +:+ Py.str (dict_get request "action")) ]}.
Proof.
  intros Hun.
  assert (Hne : ∀ a,
    Py.eqb (dict_get request "action") (Py.VStr (action_name a)) = false)
    by (intros a; apply eqb_VStr_false, not_recognized_ne, Hun).
  unfold handle_request.
  generalize (Hne complete_code), (Hne explain_code), (Hne fix_error),
    (Hne refactor), (Hne generate_tests).
  simpl. by intros -> -> -> -> ->.
Qed.

(** In the Uninitialized state a recognized action fails on the attribute
    lookup, before any call. *)
Lemma handle_request_uninitialized (self : VSCodeMCPServer)
    (request : Dict) (a : Action) :
  agent self = None →
  request !! "action" = Some (Py.VStr (action_name a)) →
  handle_request self request =
    Raise (AttributeError "'NoneType' object has no attribute 'run'").
Proof.
  intros Hag Hact. unfold handle_request, dict_get. rewrite Hact, Hag.
  by destruct a.
Qed.

Section ExecFacts.

Context {S : Type} (run : AgentCall → S → outcome string * S).

Lemma exec_Return {A} (a : A) (w : World S) :
  exec run (Return a) w = (Returned a, w).
Proof. reflexivity. Qed.

Lemma exec_Await_returned {A} (c : AgentCall) (k : string → Coro A)
    (w : World S) (reply : string) (s' : S) :
  run c (hidden w) = (Returned reply, s') →
  exec run (Await c k) w =
    exec run (k reply) {| hidden := s'; calls := calls w ++ [c] |}.
Proof. intros Hrun. simpl. by rewrite Hrun. Qed.

Lemma exec_Await_raised {A} (c : AgentCall) (k : string → Coro A)
    (w : World S) (e : exn) (s' : S) :
  run c (hidden w) = (Raised e, s') →
  exec run (Await c k) w =
    (Raised e, {| hidden := s'; calls := calls w ++ [c] |}).
Proof. intros Hrun. simpl. by rewrite Hrun. Qed.

(** A coroutine that awaits once and returns leaves the world the single
    call leaves, whether the agent replies or fails. *)
Lemma exec_single_call_world {A} (c : AgentCall) (k : string → A)
    (w : World S) :
  (exec run (Await c (λ reply, Return (k reply))) w).2 =
    {| hidden := (run c (hidden w)).2; calls := calls w ++ [c] |}.
Proof. simpl. by destruct (run c (hidden w)) as [[reply | e] s']. Qed.

Lemma exec_bind {A B} (m : Coro A) (f : A → Coro B) (w : World S) :
  exec run (m ≫= f) w =
    match exec run m w with
    | (Returned a, w') => exec run (f a) w'
    | (Raised e, w') => (Raised e, w')
    end.
Proof.
  revert w. induction m as [a | e | c k IH]; intros w; try reflexivity.
  change (Await c k ≫= f) with (Await c (λ reply, k reply ≫= f)).
  simpl. destruct (run c (hidden w)) as [[reply | e] s']; [apply IH | done].
Qed.

End ExecFacts.

(** A failure of the agent passes through [handle_request] unchanged. *)
Example agent_failure_passes_through :
  exec failing (handle_request main_server main_request) (fresh ()) =
    (Raised (AgentFailure "model unavailable"),
     {| hidden := ();
        calls := [ {| callee := main_agent; prompt := main_instruction |} ] |}).
Proof. reflexivity. Qed.

(** Before [initialize], a recognized action cannot reach the agent. *)
Example recognized_action_before_initialize :
  exec (canned "ok") (handle_request (init default_model) main_request) (fresh ()) =
    (Raised (AttributeError "'NoneType' object has no attribute 'run'"), fresh ()).
Proof. reflexivity. Qed.

(** ** Responses *)

(** C1. In the Ready state, for each of the five recognized actions and any
    request carrying it, whatever optional fields it has or lacks: once the
    agent replies [reply] to the call, [handle_request] returns a mapping
    with exactly one key, the key the table gives for the action, and its
    value is [reply] unchanged. *)
Theorem recognized_action_response {S} (run : AgentCall → S → outcome string * S)
    (w : World S) (self : VSCodeMCPServer) (ag : Agent) (request : Dict)
    (a : Action) (reply : string) (s' : S) :
  agent self = Some ag →
  request !! "action" = Some (Py.VStr (action_name a)) →
  run {| callee := ag; prompt := instruction a request |} (hidden w)
    = (Returned reply, s') →
  ∃ response : Dict,
    (exec run (handle_request self request) w).1 = Returned response ∧
    response = {[ response_key a := Py.VStr reply ]} ∧
    dom response = {[ response_key a ]} ∧
    size response = 1.
Proof.
  intros Hag Hact Hrun. exists {[ response_key a := Py.VStr reply ]}.
  rewrite (handle_request_ready self ag request a Hag Hact).
  rewrite (exec_Await_returned run _ _ w reply s' Hrun), exec_Return.
  split_and!; [done | done | apply dom_singleton_L | apply map_size_singleton].
Qed.

Lemma recognized_action_response_witness :
  agent main_server = Some main_agent ∧
  ({[ "action" := Py.VStr "refactor"; "code" := Py.VStr "x = x + 1" ]} : Dict)
    !! "action" = Some (Py.VStr (action_name refactor)) ∧
  canned "x += 1"
    {| callee := main_agent;
       prompt := instruction refactor
         {[ "action" := Py.VStr "refactor"; "code" := Py.VStr "x = x + 1" ]} |}
    (hidden (fresh ())) = (Returned "x += 1", ()) ∧
  ∃ response : Dict,
    (exec (canned "x += 1")
       (handle_request main_server
          {[ "action" := Py.VStr "refactor"; "code" := Py.VStr "x = x + 1" ]})
       (fresh ())).1 = Returned response ∧
    response = {[ response_key refactor := Py.VStr "x += 1" ]} ∧
    dom response = {[ response_key refactor ]} ∧
    size response = 1.
Proof.
  split; [reflexivity | ]. split; [reflexivity | ]. split; [reflexivity | ].
  apply (recognized_action_response (canned "x += 1") (fresh ()) main_server
           main_agent _ refactor "x += 1" ()); reflexivity.
Defined.

(** C2. A request whose action value is not one of the five recognized
    kinds gets the mapping with the single key [error] and the text
    [Unknown action: ] followed by the value as given.  The coroutine is a
    plain return: nothing is raised, and under every agent the world, and so
    the list of calls, is left as it was. *)
Theorem unknown_action_error {S} (run : AgentCall → S → outcome string * S)
    (w : World S) (self : VSCodeMCPServer) (request : Dict) (v : Py.value) :
  request !! "action" = Some v →
  recognized v = false →
  handle_request self request =
    Return {[ "error" := Py.VStr ("Unknown action: " +:+ Py.str v) ]} ∧
  exec run (handle_request self request) w =
    (Returned {[ "error" := Py.VStr ("Unknown action: " +:+ Py.str v) ]}, w).
Proof.
  intros Hact Hun.
  assert (Hget : dict_get request "action" = v)
    by (unfold dict_get; by rewrite Hact).
  rewrite handle_request_unknown by (by rewrite Hget).
  by rewrite Hget.
Qed.

Lemma unknown_action_error_witness :
  ({[ "action" := Py.VStr "bogus_action" ]} : Dict) !! "action"
    = Some (Py.VStr "bogus_action") ∧
  recognized (Py.VStr "bogus_action") = false ∧
  handle_request main_server {[ "action" := Py.VStr "bogus_action" ]} =
    Return {[ "error" := Py.VStr "Unknown action: bogus_action" ]} ∧
  exec failing (handle_request main_server {[ "action" := Py.VStr "bogus_action" ]})
       (fresh ()) =
    (Returned {[ "error" := Py.VStr "Unknown action: bogus_action" ]}, fresh ()).
Proof.
  split; [reflexivity | ]. split; [reflexivity | ].
  apply (unknown_action_error failing (fresh ()) main_server
           {[ "action" := Py.VStr "bogus_action" ]} (Py.VStr "bogus_action"));
    reflexivity.
Defined.

(** C3. For the request of [main] in the Ready state, the one call made to
    the agent carries exactly the instruction the specification spells out,
    and once the agent replies the response is the mapping from [fix] to
    that reply. *)
Theorem main_request_instruction {S} (run : AgentCall → S → outcome string * S)
    (w : World S) (self : VSCodeMCPServer) (ag : Agent) (reply : string)
    (s' : S) :
  agent self = Some ag →
  run {| callee := ag; prompt := main_instruction |} (hidden w)
    = (Returned reply, s') →
  exec run (handle_request self main_request) w =
    (Returned {[ "fix" := Py.VStr reply ]},
     {| hidden := s';
        calls := calls w ++ [ {| callee := ag; prompt := main_instruction |} ] |}).
Proof.
  intros Hag Hrun.
  rewrite (handle_request_ready self ag main_request fix_error Hag eq_refl).
  change (instruction fix_error main_request) with main_instruction.
  by rewrite (exec_Await_returned run _ _ w reply s' Hrun).
Qed.

Lemma main_request_instruction_witness :
  agent main_server = Some main_agent ∧
  canned "Convert the price with int()."
    {| callee := main_agent; prompt := main_instruction |} (hidden (fresh ()))
    = (Returned "Convert the price with int().", ()) ∧
  exec (canned "Convert the price with int().")
       (handle_request main_server main_request) (fresh ()) =
    (Returned {[ "fix" := Py.VStr "Convert the price with int()." ]},
     {| hidden := ();
        calls := calls (fresh ())
                 ++ [ {| callee := main_agent; prompt := main_instruction |} ] |}).
Proof.
  split; [reflexivity | ]. split; [reflexivity | ].
  apply (main_request_instruction (canned "Convert the price with int().")
           (fresh ()) main_server main_agent "Convert the price with int()." ());
    reflexivity.
Defined.

(** ** Absent and unrecognized actions *)

(** C4, as stated, fails: with the action field absent the call does not
    fail at all.  On [request_without_action] the initialized server
    returns a response mapping, and no exception of any kind comes out,
    even under an agent that fails on every call. *)
Lemma absent_action_is_not_a_failure :
  request_without_action !! "action" = None ∧
  handle_request main_server request_without_action =
    Return {[ "error" := Py.VStr "Unknown action: None" ]} ∧
  ¬ (∃ e, (exec failing (handle_request main_server request_without_action)
             (fresh ())).1 = Raised e).
Proof.
  split; [reflexivity | ]. split; [reflexivity | ].
  intros [e He]. vm_compute in He. discriminate He.
Qed.

(** C4, amended.  With the action field absent, [handle_request] does not
    fail: in either state and under every agent it returns a response
    mapping whose only key is [error]. *)
Theorem absent_action_returns_normally {S}
    (run : AgentCall → S → outcome string * S) (w : World S)
    (self : VSCodeMCPServer) (request : Dict) :
  request !! "action" = None →
  ∃ response : Dict,
    (exec run (handle_request self request) w).1 = Returned response ∧
    dom response = {[ "error" ]}.
Proof.
  intros Hact.
  assert (Hget : dict_get request "action" = Py.VNone)
    by (unfold dict_get; by rewrite Hact).
  rewrite handle_request_unknown by (by rewrite Hget).
  eexists. split; [reflexivity | apply dom_singleton_L].
Qed.

Lemma absent_action_returns_normally_witness :
  request_without_action !! "action" = None ∧
  ∃ response : Dict,
    (exec failing (handle_request (init default_model) request_without_action)
       (fresh ())).1 = Returned response ∧
    dom response = {[ "error" ]}.
Proof.
  split; [reflexivity | ].
  apply (absent_action_returns_normally failing (fresh ()) (init default_model)
           request_without_action); reflexivity.
Defined.

(** C8. With the action key absent, the lookup gives [None], which the
    diagnostic renders as the text [None]: the result is the mapping from
    [error] to [Unknown action: None].  The coroutine is a plain return, so
    nothing is raised, and under every agent the world, and so the list of
    calls, is left as it was. *)
Theorem absent_action_error_None {S}
    (run : AgentCall → S → outcome string * S) (w : World S)
    (self : VSCodeMCPServer) (request : Dict) :
  request !! "action" = None →
  handle_request self request =
    Return {[ "error" := Py.VStr "Unknown action: None" ]} ∧
  exec run (handle_request self request) w =
    (Returned {[ "error" := Py.VStr "Unknown action: None" ]}, w).
Proof.
  intros Hact.
  assert (Hget : dict_get request "action" = Py.VNone)
    by (unfold dict_get; by rewrite Hact).
  rewrite handle_request_unknown by (by rewrite Hget).
  by rewrite Hget.
Qed.

Lemma absent_action_error_None_witness :
  (∅ : Dict) !! "action" = None ∧
  handle_request main_server ∅ =
    Return {[ "error" := Py.VStr "Unknown action: None" ]} ∧
  exec counting (handle_request main_server ∅) (fresh 0) =
    (Returned {[ "error" := Py.VStr "Unknown action: None" ]}, fresh 0).
Proof.
  split; [reflexivity | ].
  apply (absent_action_error_None counting (fresh 0) main_server ∅);
    reflexivity.
Defined.

(** C9. In the Uninitialized state ([self.agent] is [None]) a request whose
    action is unrecognized or absent still succeeds: the error mapping is
    returned, the agent is never looked at, and in particular no
    [AttributeError] arises. *)
Theorem unknown_action_uninitialized {S}
    (run : AgentCall → S → outcome string * S) (w : World S)
    (self : VSCodeMCPServer) (request : Dict) :
  agent self = None →
  recognized (dict_get request "action") = false →
  exec run (handle_request self request) w =
    (Returned {[ "error" :=
       Py.VStr ("Unknown action: " +:+ Py.str (dict_get request "action")) ]},
     w) ∧
  ∀ msg, (exec run (handle_request self request) w).1
           ≠ Raised (AttributeError msg).
Proof.
  intros _ Hun. rewrite (handle_request_unknown self request Hun).
  split; [reflexivity | discriminate].
Qed.

Lemma unknown_action_uninitialized_witness :
  agent (init default_model) = None ∧
  recognized (dict_get {[ "action" := Py.VStr "deploy" ]} "action") = false ∧
  exec failing (handle_request (init default_model)
                  {[ "action" := Py.VStr "deploy" ]}) (fresh ()) =
    (Returned {[ "error" :=
       Py.VStr ("Unknown action: "
                +:+ Py.str (dict_get {[ "action" := Py.VStr "deploy" ]} "action")) ]},
     fresh ()) ∧
  ∀ msg, (exec failing (handle_request (init default_model)
                          {[ "action" := Py.VStr "deploy" ]}) (fresh ())).1
           ≠ Raised (AttributeError msg).
Proof.
  split; [reflexivity | ]. split; [reflexivity | ].
  apply (unknown_action_uninitialized failing (fresh ()) (init default_model)
           {[ "action" := Py.VStr "deploy" ]}); reflexivity.
Defined.

(** ** Instructions *)

Lemma rendered_ready (self : VSCodeMCPServer) (ag : Agent) (request : Dict)
    (a : Action) :
  agent self = Some ag →
  request !! "action" = Some (Py.VStr (action_name a)) →
  rendered (handle_request self request) = Some (instruction a request).
Proof.
  intros Hag Hact. by rewrite (handle_request_ready self ag request a Hag Hact).
Qed.

Lemma field_absent (request : Dict) (name dflt : string) :
  request !! name = None → field request name dflt = dflt.
Proof. unfold field. by intros ->. Qed.

Lemma field_insert_eq (request : Dict) (name dflt text : string) :
  field (<[name := Py.VStr text]> request) name dflt = text.
Proof. unfold field. by rewrite lookup_insert_eq. Qed.

Lemma field_insert_ne (request : Dict) (name other dflt : string) (v : Py.value) :
  other ≠ name → field (<[other := v]> request) name dflt = field request name dflt.
Proof. intros Hne. unfold field. by rewrite lookup_insert_ne. Qed.

(** The instruction of an action only reads the action's own fields. *)
Lemma instruction_ext (a : Action) (request1 request2 : Dict) :
  Forall (λ name, request1 !! name = request2 !! name) (own_fields a).*1 →
  instruction a request1 = instruction a request2.
Proof.
  destruct a; simpl; rewrite !Forall_cons; intros (H1 & H2);
    try destruct H2 as (H2 & _); unfold field; by rewrite H1, ?H2.
Qed.

(** C5. Unset optional fields take their fixed defaults.  In the Ready
    state, a [refactor] request with no [goal] field is rendered to an
    instruction in which [to improve readability and performance:] occurs;
    and a [generate_tests] request with no [framework] field is rendered
    with [pytest] in the framework's place, and handled exactly as the same
    request with [framework] set to [pytest]. *)
Theorem unset_fields_take_defaults (self : VSCodeMCPServer) (ag : Agent)
    (request_r request_t : Dict) :
  agent self = Some ag →
  request_r !! "action" = Some (Py.VStr "refactor") →
  request_r !! "goal" = None →
  request_t !! "action" = Some (Py.VStr "generate_tests") →
  request_t !! "framework" = None →
  (∃ text, rendered (handle_request self request_r) = Some text ∧
           occurs_in "to improve readability and performance:" text) ∧
  rendered (handle_request self request_t) =
    Some ("Generate pytest tests for:" +:+ Py.nl +:+ "```" +:+ Py.nl
          +:+ field request_t "code" "" +:+ Py.nl +:+ "```") ∧
  handle_request self request_t =
    handle_request self (<["framework" := Py.VStr "pytest"]> request_t).
Proof.
  intros Hag Hr Hgoal Ht Hfw. split_and!.
  - eexists. split; [apply (rendered_ready self ag request_r refactor Hag Hr) | ].
    exists "Refactor this code ",
      (Py.nl +:+ "```" +:+ Py.nl +:+ field request_r "code" "" +:+ Py.nl +:+ "```").
    simpl. by rewrite (field_absent request_r "goal" _ Hgoal).
  - rewrite (rendered_ready self ag request_t generate_tests Hag Ht). simpl.
    by rewrite (field_absent request_t "framework" _ Hfw).
  - rewrite (handle_request_ready self ag request_t generate_tests Hag Ht).
    rewrite (handle_request_ready self ag _ generate_tests Hag)
      by (by rewrite lookup_insert_ne).
    simpl. rewrite field_insert_eq, field_insert_ne by done.
    by rewrite (field_absent request_t "framework" _ Hfw).
Qed.

Lemma unset_fields_take_defaults_witness :
  agent main_server = Some main_agent ∧
  ({[ "action" := Py.VStr "refactor"; "code" := Py.VStr "x = x + 1" ]} : Dict)
    !! "action" = Some (Py.VStr "refactor") ∧
  ({[ "action" := Py.VStr "refactor"; "code" := Py.VStr "x = x + 1" ]} : Dict)
    !! "goal" = None ∧
  ({[ "action" := Py.VStr "generate_tests" ]} : Dict) !! "action"
    = Some (Py.VStr "generate_tests") ∧
  ({[ "action" := Py.VStr "generate_tests" ]} : Dict) !! "framework" = None ∧
  (∃ text,
     rendered (handle_request main_server
       {[ "action" := Py.VStr "refactor"; "code" := Py.VStr "x = x + 1" ]})
       = Some text ∧
     occurs_in "to improve readability and performance:" text) ∧
  rendered (handle_request main_server {[ "action" := Py.VStr "generate_tests" ]}) =
    Some ("Generate pytest tests for:" +:+ Py.nl +:+ "```" +:+ Py.nl
          +:+ field {[ "action" := Py.VStr "generate_tests" ]} "code" ""
          +:+ Py.nl +:+ "```") ∧
  handle_request main_server {[ "action" := Py.VStr "generate_tests" ]} =
    handle_request main_server
      (<["framework" := Py.VStr "pytest"]> {[ "action" := Py.VStr "generate_tests" ]}).
Proof.
  do 5 (split; [reflexivity | ]).
  apply (unset_fields_take_defaults main_server main_agent
           {[ "action" := Py.VStr "refactor"; "code" := Py.VStr "x = x + 1" ]}
           {[ "action" := Py.VStr "generate_tests" ]}); reflexivity.
Defined.

(** C10. For a recognized action, what [handle_request] does is fixed by
    the action and the action's own fields: two requests that carry the
    same action and agree on those fields (same value, or both absent) are
    handled identically, with the same instruction and the same response
    key, whatever other keys either of them holds. *)
Theorem own_fields_determine_handling (self : VSCodeMCPServer)
    (request1 request2 : Dict) (a : Action) :
  request1 !! "action" = Some (Py.VStr (action_name a)) →
  request2 !! "action" = Some (Py.VStr (action_name a)) →
  Forall (λ name, request1 !! name = request2 !! name) (own_fields a).*1 →
  handle_request self request1 = handle_request self request2 ∧
  rendered (handle_request self request1) = rendered (handle_request self request2).
Proof.
  intros Hact1 Hact2 Hsame.
  assert (Heq : handle_request self request1 = handle_request self request2);
    [ | by rewrite Heq ].
  destruct (agent self) as [ag | ] eqn:Hag.
  - rewrite (handle_request_ready self ag request1 a Hag Hact1).
    rewrite (handle_request_ready self ag request2 a Hag Hact2).
    by rewrite (instruction_ext a request1 request2 Hsame).
  - rewrite (handle_request_uninitialized self request1 a Hag Hact1).
    by rewrite (handle_request_uninitialized self request2 a Hag Hact2).
Qed.

Lemma own_fields_determine_handling_witness :
  ({[ "action" := Py.VStr "explain_code"; "code" := Py.VStr "x = 1" ]} : Dict)
    !! "action" = Some (Py.VStr (action_name explain_code)) ∧
  ({[ "action" := Py.VStr "explain_code"; "code" := Py.VStr "x = 1";
      "goal" := Py.VStr "speed"; "verbose" := Py.VBool true ]} : Dict)
    !! "action" = Some (Py.VStr (action_name explain_code)) ∧
  Forall (λ name,
      ({[ "action" := Py.VStr "explain_code"; "code" := Py.VStr "x = 1" ]} : Dict)
        !! name =
      ({[ "action" := Py.VStr "explain_code"; "code" := Py.VStr "x = 1";
          "goal" := Py.VStr "speed"; "verbose" := Py.VBool true ]} : Dict)
        !! name)
    (own_fields explain_code).*1 ∧
  handle_request main_server
    {[ "action" := Py.VStr "explain_code"; "code" := Py.VStr "x = 1" ]} =
  handle_request main_server
    {[ "action" := Py.VStr "explain_code"; "code" := Py.VStr "x = 1";
       "goal" := Py.VStr "speed"; "verbose" := Py.VBool true ]} ∧
  rendered (handle_request main_server
    {[ "action" := Py.VStr "explain_code"; "code" := Py.VStr "x = 1" ]}) =
  rendered (handle_request main_server
    {[ "action" := Py.VStr "explain_code"; "code" := Py.VStr "x = 1";
       "goal" := Py.VStr "speed"; "verbose" := Py.VBool true ]}).
Proof.
  split; [reflexivity | ]. split; [reflexivity | ].
  split; [repeat constructor | ].
  apply (own_fields_determine_handling main_server
           {[ "action" := Py.VStr "explain_code"; "code" := Py.VStr "x = 1" ]}
           {[ "action" := Py.VStr "explain_code"; "code" := Py.VStr "x = 1";
              "goal" := Py.VStr "speed"; "verbose" := Py.VBool true ]}
           explain_code); [reflexivity | reflexivity | repeat constructor].
Defined.

(** ** Calls to the agent *)

(** C6. In the Ready state, an invocation with a recognized action makes
    exactly one call to the agent, whether the agent replies or fails: the
    list of calls grows by that one call, carrying the instruction of the
    table, and the only other change to the world is what that one call did
    to the agent's hidden state.  Nothing is retried and nothing is
    remembered between invocations. *)
Theorem recognized_action_one_call {S}
    (run : AgentCall → S → outcome string * S) (w : World S)
    (self : VSCodeMCPServer) (ag : Agent) (request : Dict) (a : Action) :
  agent self = Some ag →
  request !! "action" = Some (Py.VStr (action_name a)) →
  ∃ c : AgentCall,
    c = {| callee := ag; prompt := instruction a request |} ∧
    calls (exec run (handle_request self request) w).2 = calls w ++ [c] ∧
    length (calls (exec run (handle_request self request) w).2)
      = Datatypes.S (length (calls w)) ∧
    hidden (exec run (handle_request self request) w).2
      = (run c (hidden w)).2.
Proof.
  intros Hag Hact. eexists. split; [reflexivity | ].
  rewrite (handle_request_ready self ag request a Hag Hact).
  rewrite (exec_single_call_world run _ (λ reply, {[ response_key a := Py.VStr reply ]}) w).
  simpl. split_and!; [done | | done].
  rewrite length_app. simpl. lia.
Qed.

Lemma recognized_action_one_call_witness :
  agent main_server = Some main_agent ∧
  main_request !! "action" = Some (Py.VStr (action_name fix_error)) ∧
  ∃ c : AgentCall,
    c = {| callee := main_agent; prompt := instruction fix_error main_request |} ∧
    calls (exec failing (handle_request main_server main_request) (fresh ())).2
      = calls (fresh ()) ++ [c] ∧
    length (calls (exec failing (handle_request main_server main_request)
                     (fresh ())).2)
      = Datatypes.S (length (calls (fresh ()))) ∧
    hidden (exec failing (handle_request main_server main_request) (fresh ())).2
      = (failing c (hidden (fresh ()))).2.
Proof.
  split; [reflexivity | ]. split; [reflexivity | ].
  apply (recognized_action_one_call failing (fresh ()) main_server main_agent
           main_request fix_error); reflexivity.
Defined.

(** C7. Awaiting [handle_request] twice with the same request, in the Ready
    state and with a recognized action, calls the agent twice: the second
    invocation sends the same instruction again, to the agent as the first
    call left it, and gets its own reply.  Both responses have the same
    single key, the one of the action; their values are the two replies,
    which need not be equal. *)
Theorem repeated_request_calls_again {S}
    (run : AgentCall → S → outcome string * S) (w : World S)
    (self : VSCodeMCPServer) (ag : Agent) (request : Dict) (a : Action)
    (reply1 reply2 : string) (s1 s2 : S) :
  agent self = Some ag →
  request !! "action" = Some (Py.VStr (action_name a)) →
  run {| callee := ag; prompt := instruction a request |} (hidden w)
    = (Returned reply1, s1) →
  run {| callee := ag; prompt := instruction a request |} s1
    = (Returned reply2, s2) →
  ∃ first second : Dict,
    exec run (twice self request) w =
      (Returned (first, second),
       {| hidden := s2;
          calls := calls w
                   ++ [ {| callee := ag; prompt := instruction a request |};
                        {| callee := ag; prompt := instruction a request |} ] |}) ∧
    first = {[ response_key a := Py.VStr reply1 ]} ∧
    second = {[ response_key a := Py.VStr reply2 ]} ∧
    dom first = dom second.
Proof.
  intros Hag Hact Hrun1 Hrun2.
  exists {[ response_key a := Py.VStr reply1 ]},
         {[ response_key a := Py.VStr reply2 ]}.
  split_and!; [ | done | done | by rewrite !dom_singleton_L ].
  unfold twice. rewrite exec_bind.
  rewrite (handle_request_ready self ag request a Hag Hact).
  rewrite (exec_Await_returned run _ _ w reply1 s1 Hrun1), exec_Return.
  rewrite exec_bind.
  rewrite (exec_Await_returned run _ _
             {| hidden := s1; calls := calls w ++ [_] |} reply2 s2 Hrun2).
  rewrite exec_Return. simpl. by rewrite <- app_assoc.
Qed.

Lemma repeated_request_calls_again_witness :
  agent main_server = Some main_agent ∧
  main_request !! "action" = Some (Py.VStr (action_name fix_error)) ∧
  counting {| callee := main_agent; prompt := instruction fix_error main_request |}
    (hidden (fresh 0)) = (Returned "reply 0", 1) ∧
  counting {| callee := main_agent; prompt := instruction fix_error main_request |}
    1 = (Returned "reply 1", 2) ∧
  ∃ first second : Dict,
    exec counting (twice main_server main_request) (fresh 0) =
      (Returned (first, second),
       {| hidden := 2;
          calls := calls (fresh 0)
                   ++ [ {| callee := main_agent;
                           prompt := instruction fix_error main_request |};
                        {| callee := main_agent;
                           prompt := instruction fix_error main_request |} ] |}) ∧
    first = {[ response_key fix_error := Py.VStr "reply 0" ]} ∧
    second = {[ response_key fix_error := Py.VStr "reply 1" ]} ∧
    dom first = dom second.
Proof.
  do 4 (split; [reflexivity | ]).
  apply (repeated_request_calls_again counting (fresh 0) main_server main_agent
           main_request fix_error "reply 0" "reply 1" 1 2); reflexivity.
Defined.

(** ** Further properties of [handle_request] *)

Lemma string_app_assoc (s t u : string) : (s +:+ t) +:+ u = s +:+ t +:+ u.
Proof.
  induction s as [ | c s IH]; [reflexivity | ].
  change (String c ((s +:+ t) +:+ u) = String c (s +:+ t +:+ u)).
  by rewrite IH.
Qed.

Lemma string_app_nil_r (s : string) : s +:+ "" = s.
Proof.
  induction s as [ | c s IH]; [reflexivity | ].
  change (String c (s +:+ "") = String c s). by rewrite IH.
Qed.

Lemma recognized_inv (v : Py.value) :
  recognized v = true → ∃ a, v = Py.VStr (action_name a).
Proof.
  unfold recognized. intros Hin%bool_decide_eq_true.
  apply list_elem_of_fmap in Hin as (a & -> & _). by exists a.
Qed.

Lemma dict_get_VStr (d : Dict) (key s : string) :
  dict_get d key = Py.VStr s → d !! key = Some (Py.VStr s).
Proof. unfold dict_get. destruct (d !! key); simpl; congruence. Qed.

Lemma handle_request_handling (self : VSCodeMCPServer) (request : Dict) :
  handling self request (handle_request self request).
Proof.
  destruct (recognized (dict_get request "action")) eqn:Hrec.
  - apply recognized_inv in Hrec as [a Hact%dict_get_VStr].
    destruct (agent self) as [ag | ] eqn:Hag.
    + rewrite (handle_request_ready self ag request a Hag Hact).
      by apply handling_ready.
    + rewrite (handle_request_uninitialized self request a Hag Hact).
      by apply (handling_uninitialized self request a).
  - rewrite (handle_request_unknown self request Hrec).
    by apply handling_unknown.
Qed.

Lemma response_key_not_error (a : Action) : response_key a ≠ "error".
Proof. by destruct a. Qed.


Lemma response_key_inj (a b : Action) : response_key a = response_key b → a = b.
Proof. destruct a, b; simpl; intros H; try reflexivity; discriminate H. Qed.

Lemma recognized_lookup (request : Dict) (a : Action) :
  request !! "action" = Some (Py.VStr (action_name a)) →
  recognized (dict_get request "action") = true.
Proof.
  intros Hact. unfold dict_get. rewrite Hact. apply recognized_action_name.
Qed.

(** X1. When the agent fails on the call, [handle_request] fails with the
    same exception: it is not caught, no response mapping is produced, and
    the agent is not asked again. *)
Theorem agent_failure_propagates {S}
    (run : AgentCall → S → outcome string * S) (w : World S)
    (self : VSCodeMCPServer) (ag : Agent) (request : Dict) (a : Action)
    (e : exn) (s' : S) :
  agent self = Some ag →
  request !! "action" = Some (Py.VStr (action_name a)) →
  run {| callee := ag; prompt := instruction a request |} (hidden w)
    = (Raised e, s') →
  exec run (handle_request self request) w =
    (Raised e,
     {| hidden := s';
        calls := calls w
                 ++ [ {| callee := ag; prompt := instruction a request |} ] |}).
Proof.
  intros Hag Hact Hrun.
  rewrite (handle_request_ready self ag request a Hag Hact).
  by apply exec_Await_raised.
Qed.

Lemma agent_failure_propagates_witness :
  agent main_server = Some main_agent ∧
  ({[ "action" := Py.VStr "explain_code" ]} : Dict) !! "action"
    = Some (Py.VStr (action_name explain_code)) ∧
  failing {| callee := main_agent;
             prompt := instruction explain_code {[ "action" := Py.VStr "explain_code" ]} |}
    (hidden (fresh ())) = (Raised (AgentFailure "model unavailable"), ()) ∧
  exec failing (handle_request main_server {[ "action" := Py.VStr "explain_code" ]})
       (fresh ()) =
    (Raised (AgentFailure "model unavailable"),
     {| hidden := ();
        calls := calls (fresh ())
                 ++ [ {| callee := main_agent;
                         prompt := instruction explain_code
                                     {[ "action" := Py.VStr "explain_code" ]} |} ] |}).
Proof.
  do 3 (split; [reflexivity | ]).
  apply (agent_failure_propagates failing (fresh ()) main_server main_agent
           {[ "action" := Py.VStr "explain_code" ]} explain_code
           (AgentFailure "model unavailable") ()); reflexivity.
Defined.

(** X2. The life cycle of the server.  A server as constructed answers a
    recognized action with an [AttributeError] and contacts nothing; after
    [initialize] the same request makes its one call, to an agent whose
    model is the one given to the constructor. *)
Theorem initialize_enables_requests {S}
    (run : AgentCall → S → outcome string * S) (w : World S)
    (m : string) (request : Dict) (a : Action) :
  request !! "action" = Some (Py.VStr (action_name a)) →
  exec run (handle_request (init m) request) w =
    (Raised (AttributeError "'NoneType' object has no attribute 'run'"), w) ∧
  (∃ c : AgentCall,
     calls (exec run (handle_request (initialize (init m)) request) w).2
       = calls w ++ [c] ∧
     agent_model (callee c) = m ∧
     prompt c = instruction a request) ∧
  model (initialize (init m)) = m.
Proof.
  intros Hact. split_and!; [ | | reflexivity].
  - by rewrite (handle_request_uninitialized (init m) request a eq_refl Hact).
  - exists {| callee := coding_agent m; prompt := instruction a request |}.
    split_and!; [ | reflexivity | reflexivity].
    rewrite (handle_request_ready (initialize (init m)) _ request a eq_refl Hact).
    rewrite (exec_single_call_world run _
               (λ reply, {[ response_key a := Py.VStr reply ]}) w).
    reflexivity.
Qed.

Lemma initialize_enables_requests_witness :
  ({[ "action" := Py.VStr "generate_tests"; "code" := Py.VStr "def f(): pass" ]} : Dict)
    !! "action" = Some (Py.VStr (action_name generate_tests)) ∧
  exec counting
    (handle_request (init "my-model")
       {[ "action" := Py.VStr "generate_tests"; "code" := Py.VStr "def f(): pass" ]})
    (fresh 0) =
    (Raised (AttributeError "'NoneType' object has no attribute 'run'"), fresh 0) ∧
  (∃ c : AgentCall,
     calls (exec counting
       (handle_request (initialize (init "my-model"))
          {[ "action" := Py.VStr "generate_tests"; "code" := Py.VStr "def f(): pass" ]})
       (fresh 0)).2 = calls (fresh 0) ++ [c] ∧
     agent_model (callee c) = "my-model" ∧
     prompt c = instruction generate_tests
       {[ "action" := Py.VStr "generate_tests"; "code" := Py.VStr "def f(): pass" ]}) ∧
  model (initialize (init "my-model")) = "my-model".
Proof.
  split; [reflexivity | ].
  apply (initialize_enables_requests counting (fresh 0) "my-model"
           {[ "action" := Py.VStr "generate_tests"; "code" := Py.VStr "def f(): pass" ]}
           generate_tests); reflexivity.
Defined.



(** X4. [handle_request] never makes more than one call, and makes one only
    when the server is Ready and the action is recognized: whatever the
    request, the state and the agent, the list of calls grows by one in that
    case and by none in every other. *)
Theorem calls_only_when_ready_and_recognized {S}
    (run : AgentCall → S → outcome string * S) (w : World S)
    (self : VSCodeMCPServer) (request : Dict) :
  length (calls (exec run (handle_request self request) w).2) =
    length (calls w)
    + match agent self with
      | Some _ => if recognized (dict_get request "action") then 1 else 0
      | None => 0
      end.
Proof.
  destruct (handle_request_handling self request) as [Hun | a Hact Hag | a ag Hact Hag].
  - rewrite Hun. simpl. destruct (agent self); lia.
  - rewrite Hag. simpl. lia.
  - rewrite Hag, (recognized_lookup request a Hact).
    rewrite (exec_single_call_world run _
               (λ reply, {[ response_key a := Py.VStr reply ]}) w).
    simpl. rewrite length_app. simpl. lia.
Qed.

Lemma field_text (request : Dict) (name : string) (v : Py.value)
    (other dflt : string) :
  request !! name = Some v →
  field (<[name := Py.VStr (Py.str v)]> request) other dflt
    = field request other dflt.
Proof.
  intros Hv. unfold field. destruct (decide (name = other)) as [<- | Hne].
  - by rewrite lookup_insert_eq, Hv.
  - by rewrite lookup_insert_ne.
Qed.

Lemma instruction_text (a : Action) (request : Dict) (name : string)
    (v : Py.value) :
  request !! name = Some v →
  instruction a (<[name := Py.VStr (Py.str v)]> request) = instruction a request.
Proof.
  intros Hv. destruct a; simpl; by rewrite !(field_text request name v _ _ Hv).
Qed.

(** X5. The fields of a request enter only as text.  Replacing the value
    of any key other than [action] by the string [str] gives for it (the
    number 42 by the string 42, [None] by the string None) changes nothing
    in how the request is handled. *)
Theorem field_values_enter_as_text (self : VSCodeMCPServer) (request : Dict)
    (name : string) (v : Py.value) :
  name ≠ "action" →
  request !! name = Some v →
  handle_request self (<[name := Py.VStr (Py.str v)]> request)
    = handle_request self request.
Proof.
  intros Hne Hv.
  assert (Hlook : (<[name := Py.VStr (Py.str v)]> request) !! "action"
                  = request !! "action") by (by rewrite lookup_insert_ne).
  assert (Hget : dict_get (<[name := Py.VStr (Py.str v)]> request) "action"
                 = dict_get request "action")
    by (unfold dict_get; by rewrite Hlook).
  destruct (handle_request_handling self request) as [Hun | a Hact Hag | a ag Hact Hag].
  - rewrite handle_request_unknown by (by rewrite Hget). by rewrite Hget.
  - apply (handle_request_uninitialized self _ a Hag). by rewrite Hlook.
  - rewrite (handle_request_ready self ag _ a Hag) by (by rewrite Hlook).
    by rewrite (instruction_text a request name v Hv).
Qed.

Lemma field_values_enter_as_text_witness :
  "code" ≠ "action" ∧
  ({[ "action" := Py.VStr "explain_code"; "code" := Py.VInt 42 ]} : Dict)
    !! "code" = Some (Py.VInt 42) ∧
  handle_request main_server
    (<["code" := Py.VStr (Py.str (Py.VInt 42))]>
       {[ "action" := Py.VStr "explain_code"; "code" := Py.VInt 42 ]})
  = handle_request main_server
      {[ "action" := Py.VStr "explain_code"; "code" := Py.VInt 42 ]}.
Proof.
  split; [discriminate | ]. split; [reflexivity | ].
  apply (field_values_enter_as_text main_server
           {[ "action" := Py.VStr "explain_code"; "code" := Py.VInt 42 ]}
           "code" (Py.VInt 42)); [discriminate | reflexivity].
Defined.

Lemma action_name_inj (a b : Action) : action_name a = action_name b → a = b.
Proof. destruct a, b; simpl; intros H; try reflexivity; discriminate H. Qed.

(** X6. The key of a response tells the action apart.  Two responses that
    [handle_request] returned, for any two requests, states and agents, carry
    the same key exactly when the two requests had the same action value or
    both had an unrecognized one. *)
Theorem response_key_tells_action {S}
    (run : AgentCall → S → outcome string * S) (w1 w2 : World S)
    (self1 self2 : VSCodeMCPServer) (request1 request2 response1 response2 : Dict) :
  (exec run (handle_request self1 request1) w1).1 = Returned response1 →
  (exec run (handle_request self2 request2) w2).1 = Returned response2 →
  dom response1 = dom response2 ↔
    (recognized (dict_get request1 "action") = false ∧
     recognized (dict_get request2 "action") = false) ∨
    dict_get request1 "action" = dict_get request2 "action".
Proof.
  intros Hret1 Hret2.
  destruct (handle_request_handling self1 request1)
    as [Hun1 | a1 Hact1 Hag1 | a1 ag1 Hact1 Hag1]; [ | discriminate Hret1 | ];
  destruct (handle_request_handling self2 request2)
    as [Hun2 | a2 Hact2 Hag2 | a2 ag2 Hact2 Hag2]; try discriminate Hret2;
  simpl in Hret1, Hret2;
  repeat match goal with
  | H : context [run ?c (hidden ?w)] |- _ =>
      destruct (run c (hidden w)) as [[? | ?] ?]; simpl in H; try discriminate H
  end;
  injection Hret1 as <-; injection Hret2 as <-; rewrite !dom_singleton_L.
  - split; [by left | done].
  - pose proof (recognized_lookup request2 a2 Hact2) as Hrec2. split.
    + intros Hdom. destruct (response_key_not_error a2). set_solver.
    + intros [[_ Hno] | Heq]; [congruence | ].
      rewrite Heq in Hun1. congruence.
  - pose proof (recognized_lookup request1 a1 Hact1) as Hrec1. split.
    + intros Hdom. destruct (response_key_not_error a1). set_solver.
    + intros [[Hno _] | Heq]; [congruence | ].
      rewrite <- Heq in Hun2. congruence.
  - pose proof (recognized_lookup request1 a1 Hact1) as Hrec1.
    unfold dict_get. rewrite Hact1, Hact2. simpl. split.
    + intros Hdom. right.
      assert (response_key a1 = response_key a2) as Hkey by set_solver.
      by rewrite (response_key_inj a1 a2 Hkey).
    + intros [[Hno _] | Heq].
      * unfold dict_get in Hrec1. rewrite Hact1 in Hrec1. simpl in Hrec1.
        congruence.
      * injection Heq as Heq. by rewrite (action_name_inj a1 a2 Heq).
Qed.

Lemma response_key_tells_action_witness :
  (exec counting (handle_request main_server main_request) (fresh 0)).1
    = Returned {[ "fix" := Py.VStr "reply 0" ]} ∧
  (exec counting
     (handle_request main_server
        {[ "action" := Py.VStr "fix_error"; "error" := Py.VStr "KeyError" ]})
     (fresh 5)).1 = Returned {[ "fix" := Py.VStr "reply 5" ]} ∧
  (dom ({[ "fix" := Py.VStr "reply 0" ]} : Dict)
     = dom ({[ "fix" := Py.VStr "reply 5" ]} : Dict) ↔
   (recognized (dict_get main_request "action") = false ∧
    recognized (dict_get
      {[ "action" := Py.VStr "fix_error"; "error" := Py.VStr "KeyError" ]}
      "action") = false) ∨
   dict_get main_request "action"
     = dict_get {[ "action" := Py.VStr "fix_error"; "error" := Py.VStr "KeyError" ]}
         "action").
Proof.
  split; [reflexivity | ]. split; [reflexivity | ].
  apply (response_key_tells_action counting (fresh 0) (fresh 5) main_server
           main_server main_request
           {[ "action" := Py.VStr "fix_error"; "error" := Py.VStr "KeyError" ]});
    reflexivity.
Defined.

(** X7. For every recognized action but [complete_code], the instruction
    sent ends with the text of the [code] field between two fence lines,
    exactly as given: the code is not escaped, trimmed or checked, and an
    absent [code] gives an empty line between the fences. *)
Theorem code_is_fenced_verbatim (self : VSCodeMCPServer) (ag : Agent)
    (request : Dict) (a : Action) :
  agent self = Some ag →
  request !! "action" = Some (Py.VStr (action_name a)) →
  a ≠ complete_code →
  ∃ before,
    rendered (handle_request self request) =
      Some (before +:+ "```" +:+ Py.nl +:+ field request "code" "" +:+ Py.nl
            +:+ "```").
Proof.
  intros Hag Hact Hne. rewrite (rendered_ready self ag request a Hag Hact).
  destruct a; [done | ..]; simpl.
  - by exists ("Explain this code:" +:+ Py.nl).
  - exists ("Fix this error:" +:+ Py.nl +:+ "Error: "
            +:+ field request "error" "" +:+ Py.nl +:+ "Code:" +:+ Py.nl).
    by rewrite !string_app_assoc.
  - exists ("Refactor this code to "
            +:+ field request "goal" "improve readability and performance"
            +:+ ":" +:+ Py.nl).
    by rewrite !string_app_assoc.
  - exists ("Generate " +:+ field request "framework" "pytest"
            +:+ " tests for:" +:+ Py.nl).
    by rewrite !string_app_assoc.
Qed.

Lemma code_is_fenced_verbatim_witness :
  agent main_server = Some main_agent ∧
  main_request !! "action" = Some (Py.VStr (action_name fix_error)) ∧
  fix_error ≠ complete_code ∧
  ∃ before,
    rendered (handle_request main_server main_request) =
      Some (before +:+ "```" +:+ Py.nl +:+ field main_request "code" "" +:+ Py.nl
            +:+ "```").
Proof.
  split; [reflexivity | ]. split; [reflexivity | ]. split; [discriminate | ].
  apply (code_is_fenced_verbatim main_server main_agent main_request fix_error);
    [reflexivity | reflexivity | discriminate].
Defined.

(** ** [main] *)

(** X8. [main] constructs the server, initializes it and sends its request:
    under every agent it makes exactly one call, to the agent built for
    the model it names, with the instruction for its request.  When the
    agent replies it prints the JSON text of the mapping from [fix] to the
    reply, and a line feed; when the agent fails it prints nothing and
    fails the same way.  No other failure is possible. *)
Theorem main_prints_the_fix_or_fails {S} (json_dumps : Dict → nat → string)
    (run : AgentCall → S → outcome string * S) (w : World S) :
  exec run (main json_dumps) w =
    (match (run {| callee := main_agent; prompt := main_instruction |}
                (hidden w)).1 with
     | Returned reply =>
         Returned (json_dumps {[ "fix" := Py.VStr reply ]} 2 +:+ Py.nl)
     | Raised e => Raised e
     end,
     {| hidden := (run {| callee := main_agent; prompt := main_instruction |}
                       (hidden w)).2;
        calls := calls w
                 ++ [ {| callee := main_agent; prompt := main_instruction |} ] |}).
Proof.
  change (main json_dumps) with
    (handle_request main_server main_request
       ≫= λ result, Return (json_dumps result 2 +:+ Py.nl)).
  rewrite exec_bind.
  rewrite (handle_request_ready main_server main_agent main_request fix_error
             eq_refl eq_refl).
  change (instruction fix_error main_request) with main_instruction.
  simpl.
  by destruct (run {| callee := main_agent; prompt := main_instruction |} (hidden w))
    as [[reply | e] s'].
Qed.

(** ** The printing loop *)

Lemma print_chunks_from (chunks : list Dict) (stdout : string) :
  print_chunks chunks stdout = stdout +:+ print_chunks chunks "".
Proof.
  revert stdout. induction chunks as [ | chunk rest IH]; intros stdout; simpl.
  - by rewrite string_app_nil_r.
  - rewrite (IH (stdout +:+ print_chunk chunk)), (IH ("" +:+ print_chunk chunk)).
    by rewrite string_app_assoc.
Qed.

Lemma print_chunk_unknown (chunk : Dict) :
  chunk_type_known chunk = false → print_chunk chunk = "".
Proof.
  unfold chunk_type_known, print_chunk.
  intros [[-> ->]%orb_false_elim ->]%orb_false_elim. reflexivity.
Qed.

Lemma print_chunk_content (chunk : Dict) :
  chunk !! "type" = Some (Py.VStr "content") →
  print_chunk chunk = field chunk "text" "".
Proof.
  intros Hty. unfold print_chunk, dict_get. rewrite Hty. simpl.
  apply field_get_or.
Qed.

(** X9. The loop only ever appends: what it has printed for the chunks so
    far is kept as it is, and the output for a stream is the output for
    any first part of it followed by the output for the rest. *)
Theorem print_chunks_app (before after : list Dict) (stdout : string) :
  print_chunks (before ++ after) stdout =
    print_chunks after (print_chunks before stdout) ∧
  print_chunks (before ++ after) "" =
    print_chunks before "" +:+ print_chunks after "".
Proof.
  assert (Hcut : ∀ out,
    print_chunks (before ++ after) out = print_chunks after (print_chunks before out)).
  { induction before as [ | chunk rest IH]; intros out; simpl; [done | apply IH]. }
  split; [apply Hcut | ].
  rewrite Hcut. apply print_chunks_from.
Qed.

(** X10. A chunk whose type is none of [content], [tool_use] and
    [tool_result], or that has no type at all, prints nothing: the output
    for a stream is the output for the stream without such chunks. *)
Theorem unknown_chunks_are_silent (chunks : list Dict) (stdout : string) :
  print_chunks chunks stdout =
    print_chunks (List.filter chunk_type_known chunks) stdout.
Proof.
  revert stdout. induction chunks as [ | chunk rest IH]; intros stdout; simpl.
  - reflexivity.
  - destruct (chunk_type_known chunk) eqn:Hknown; simpl.
    + apply IH.
    + rewrite (print_chunk_unknown chunk Hknown), string_app_nil_r. apply IH.
Qed.

(** X11. A stream of [content] chunks prints their texts one after the
    other with nothing added between or after them; a chunk without a
    [text] contributes nothing. *)
Theorem content_chunks_print_their_text (chunks : list Dict) :
  Forall (λ chunk : Dict, chunk !! "type" = Some (Py.VStr "content")) chunks →
  print_chunks chunks "" = join ((λ chunk, field chunk "text" "") <$> chunks).
Proof.
  induction 1 as [ | chunk rest Hty _ IH]; simpl; [reflexivity | ].
  rewrite print_chunks_from, (print_chunk_content chunk Hty), IH.
  reflexivity.
Qed.

Lemma content_chunks_print_their_text_witness :
  Forall (λ chunk : Dict, chunk !! "type" = Some (Py.VStr "content"))
    [ {[ "type" := Py.VStr "content"; "text" := Py.VStr "Hel" ]};
      {[ "type" := Py.VStr "content" ]};
      {[ "type" := Py.VStr "content"; "text" := Py.VStr "lo" ]} ] ∧
  print_chunks
    [ {[ "type" := Py.VStr "content"; "text" := Py.VStr "Hel" ]};
      {[ "type" := Py.VStr "content" ]};
      {[ "type" := Py.VStr "content"; "text" := Py.VStr "lo" ]} ] "" =
  join ((λ chunk, field chunk "text" "") <$>
    [ {[ "type" := Py.VStr "content"; "text" := Py.VStr "Hel" ]};
      {[ "type" := Py.VStr "content" ]};
      {[ "type" := Py.VStr "content"; "text" := Py.VStr "lo" ]} ]).
Proof.
  split; [repeat constructor | ].
  apply (content_chunks_print_their_text
           [ {[ "type" := Py.VStr "content"; "text" := Py.VStr "Hel" ]};
             {[ "type" := Py.VStr "content" ]};
             {[ "type" := Py.VStr "content"; "text" := Py.VStr "lo" ]} ]).
  repeat constructor.
Defined.

(** X12. The loop prints from a chunk only its [text] (for [content]) and
    its [name] (for [tool_use]), chosen by its [type]: two streams whose
    chunks agree, one by one, on these three keys print the same, whatever
    else the chunks carry (tool arguments, tool results, identifiers). *)
Theorem only_type_text_name_are_printed (chunks1 chunks2 : list Dict)
    (stdout : string) :
  Forall2 (λ chunk1 chunk2 : Dict,
      chunk1 !! "type" = chunk2 !! "type" ∧
      chunk1 !! "text" = chunk2 !! "text" ∧
      chunk1 !! "name" = chunk2 !! "name") chunks1 chunks2 →
  print_chunks chunks1 stdout = print_chunks chunks2 stdout.
Proof.
  intros Hsame. revert stdout.
  induction Hsame as [ | chunk1 chunk2 rest1 rest2 (Hty & Htx & Hnm) _ IH];
    intros stdout; simpl; [reflexivity | ].
  assert (print_chunk chunk1 = print_chunk chunk2) as ->; [ | apply IH].
  unfold print_chunk, dict_get, dict_get_or. by rewrite Hty, Htx, Hnm.
Qed.

Lemma only_type_text_name_are_printed_witness :
  Forall2 (λ chunk1 chunk2 : Dict,
      chunk1 !! "type" = chunk2 !! "type" ∧
      chunk1 !! "text" = chunk2 !! "text" ∧
      chunk1 !! "name" = chunk2 !! "name")
    [ {[ "type" := Py.VStr "tool_use"; "name" := Py.VStr "read_file" ]};
      {[ "type" := Py.VStr "tool_result" ]} ]
    [ {[ "type" := Py.VStr "tool_use"; "name" := Py.VStr "read_file";
         "arguments" := Py.VStr "/etc/passwd" ]};
      {[ "type" := Py.VStr "tool_result"; "content" := Py.VStr "root:x:0:0" ]} ] ∧
  print_chunks
    [ {[ "type" := Py.VStr "tool_use"; "name" := Py.VStr "read_file" ]};
      {[ "type" := Py.VStr "tool_result" ]} ] "" =
  print_chunks
    [ {[ "type" := Py.VStr "tool_use"; "name" := Py.VStr "read_file";
         "arguments" := Py.VStr "/etc/passwd" ]};
      {[ "type" := Py.VStr "tool_result"; "content" := Py.VStr "root:x:0:0" ]} ] "".
Proof.
  split; [repeat constructor | ].
  apply (only_type_text_name_are_printed
           [ {[ "type" := Py.VStr "tool_use"; "name" := Py.VStr "read_file" ]};
             {[ "type" := Py.VStr "tool_result" ]} ]
           [ {[ "type" := Py.VStr "tool_use"; "name" := Py.VStr "read_file";
                "arguments" := Py.VStr "/etc/passwd" ]};
             {[ "type" := Py.VStr "tool_result"; "content" := Py.VStr "root:x:0:0" ]} ]
           "").
  repeat constructor.
Defined.

(** What the loop prints for [sample_chunks]. *)
Example sample_chunks_output :
  print_chunks sample_chunks "" =
    "Reading 
🔧 Using tool: read_file
✅ Tool completed

done.".
Proof. reflexivity. Qed.

(** A [tool_use] chunk without a name is announced as [None]. *)
Example tool_use_without_name :
  print_chunk {[ "type" := Py.VStr "tool_use" ]} =
    Py.nl +:+ "🔧 Using tool: None" +:+ Py.nl.
Proof. reflexivity. Qed.
